(** * Verification of [InvoiceService] (src/invoice_service.py)

    A shallow embedding of the invoice pricing pipeline: validation,
    subtotal, fragile fee, shipping fee, discount, tax, final total and
    advisory warnings.

    The source is embedded twice.

    - The first embedding computes with exact arithmetic: Python [float]
      values are idealised as rationals [Q], so rounding, infinities, NaN
      and [OverflowError] are outside it, and a character of a [str] is a
      code point below 256.  It carries the properties of the control
      flow: which branch runs, which warnings and messages are produced,
      which fields are read.  The integer literals of the rate tables
      stay in [Z] and are injected where Python converts them.
    - Module [Binary64] computes as Python does: [float] is IEEE 754
      binary64, an [int] operand of a float operation is converted and
      raises [OverflowError] when it is too large, a float is compared
      with an int exactly, and a [str] is a sequence of Unicode code
      points.  It carries the properties that depend on the values: the
      clamp of the total, the trimming of the coupon code, what the
      validator lets through.

    In both, the class-level dictionaries are [gmap]s, the set of allowed
    categories is a [gset], the [warnings] list that the source mutates
    in place is threaded explicitly (a stage takes the list and returns
    the new one), and exceptions are a [result] type with the exception
    as an error value. *)

From Stdlib Require Import Ascii String QArith Qminmax Lqa Floats.
From stdpp Require Import gmap strings list fin_maps.

Local Open Scope string_scope.
Local Open Scope list_scope.
Local Open Scope Z_scope.
Local Open Scope Q_scope.

(** ** Numbers *)

(** Python's [a < b] and [a > b] on numbers. *)
Definition Qltb (a b : Q) : bool :=
  match a ?= b with
  | Lt => true
  | _ => false
  end.

Definition Qgtb (a b : Q) : bool := Qltb b a.

(** Python's two-argument [max(a, b)]: the first argument is kept unless
    the second is strictly greater. *)
Definition py_max (a b : Q) : Q := if Qgtb b a then b else a.

(** Python's [sum(xs)]: left to right, starting from [0]. *)
Definition py_sum (xs : list Q) : Q := fold_left Qplus xs 0.

(** ** Strings *)

(** [str.isspace] on one character, for code points below 256:
    TAB, LF, VT, FF, CR, FS, GS, RS, US, SPACE, NEL and NBSP. *)
Definition isspace (c : ascii) : bool :=
  let n := N_of_ascii c in
  ((9 <=? n) && (n <=? 13) || (28 <=? n) && (n <=? 32)
   || (n =? 133) || (n =? 160))%N.

Fixpoint lstrip (s : string) : string :=
  match s with
  | String c s' => if isspace c then lstrip s' else s
  | EmptyString => EmptyString
  end.

Fixpoint rstrip (s : string) : string :=
  match s with
  | String c s' =>
      match rstrip s' with
      | EmptyString => if isspace c then EmptyString else String c EmptyString
      | r => String c r
      end
  | EmptyString => EmptyString
  end.

(** [str.strip()] without argument. *)
Definition strip (s : string) : string := rstrip (lstrip s).

(** Truthiness of a string: [if s:] holds for the non-empty ones. *)
Definition truthy (s : string) : bool :=
  match s with
  | EmptyString => false
  | String _ _ => true
  end.

(** ** Data model *)

Record LineItem := mkLineItem {
  sku : string;
  category : string;
  unit_price : Q;
  qty : Z;
  fragile : bool
}.

Record Invoice := mkInvoice {
  invoice_id : string;
  customer_id : string;
  country : string;
  membership : string;
  coupon : option string;
  items : list LineItem
}.

(** ** Exceptions *)

Inductive exn :=
  | ValueError (msg : string)
  | AttributeError (msg : string).

Inductive result (A : Type) :=
  | Return (a : A)
  | Raise (e : exn).
Arguments Return {A} a.
Arguments Raise {A} e.

(** Sequencing: an exception skips everything that follows. *)
#[global] Instance result_ret : MRet result := λ A a, Return a.
#[global] Instance result_bind : MBind result := λ A B k r,
  match r with
  | Return a => k a
  | Raise e => Raise e
  end.

(** ** Constants and configuration *)

Definition ALLOWED_CATEGORIES : gset string :=
  {[ "book"; "food"; "electronics"; "other" ]}.

Definition FRAGILE_FEE_PER_UNIT : Q := 5.

(** country ↦ ordered list of (threshold, fee if subtotal < threshold). *)
Definition SHIPPING_RULES : gmap string (list (Z * Z)) :=
  <["TH" := [(500, 60)%Z] ]>
  (<["JP" := [(4000, 600)%Z] ]>
  (<["US" := [(100, 15)%Z; (300, 8)%Z] ]>
  (<["DEFAULT" := [(200, 25)%Z] ]> ∅))).

Definition TAX_RATE : gmap string Q :=
  <["TH" := 7 # 100]>
  (<["JP" := 10 # 100]>
  (<["US" := 8 # 100]>
  (<["DEFAULT" := 5 # 100]> ∅))).

Definition MEMBERSHIP_DISCOUNT_RATE : gmap string Q :=
  <["gold" := 3 # 100]> (<["platinum" := 5 # 100]> ∅).

Definition NON_MEMBER_BULK_THRESHOLD : Z := 3000.
Definition NON_MEMBER_BULK_DISCOUNT : Q := 20.
Definition UPGRADE_HINT_THRESHOLD : Z := 10000.

(** The instance attribute set by [__init__]. *)
Definition _coupon_rate : gmap string Q :=
  <["WELCOME10" := 10 # 100]>
  (<["VIP20" := 20 # 100]>
  (<["STUDENT5" := 5 # 100]> ∅)).

(** [d[k]]: a missing key raises [KeyError]; the tables above all hold
    the key ["DEFAULT"], the only one the source subscripts. *)
Definition DEFAULT_SHIPPING_RULES : list (Z * Z) :=
  default [] (SHIPPING_RULES !! "DEFAULT").
Definition DEFAULT_TAX_RATE : Q :=
  default 0 (TAX_RATE !! "DEFAULT").

(** ** Validation *)

(** The per-item body of the loop of [_validate]. *)
Definition item_problems (it : LineItem) : list string :=
  (if truthy (sku it) then [] else ["Item sku is missing"])
  ++ (if (qty it <=? 0)%Z then [("Invalid qty for " ++ sku it)%string] else [])
  ++ (if Qltb (unit_price it) 0
      then [("Invalid price for " ++ sku it)%string] else [])
  ++ (if decide (category it ∈ ALLOWED_CATEGORIES) then []
      else [("Unknown category for " ++ sku it)%string]).

Definition _validate (inv : option Invoice) : list string :=
  match inv with
  | None => ["Invoice is missing"]
  | Some inv =>
      let problems :=
        (if truthy (invoice_id inv) then [] else ["Missing invoice_id"])
        ++ (if truthy (customer_id inv) then [] else ["Missing customer_id"]) in
      match items inv with
      | [] => problems ++ ["Invoice must contain items"]
      | its => problems ++ concat (map item_problems its)
      end
  end.

Definition _validate_or_raise (inv : option Invoice) : result unit :=
  match _validate inv with
  | [] => Return tt
  | problems => Raise (ValueError (String.concat "; " problems))
  end.

(** ** Calculations *)

Definition _subtotal (items : list LineItem) : Q :=
  py_sum (map (λ it, unit_price it * inject_Z (qty it)) items).

Definition _fragile_fee (items : list LineItem) : Q :=
  py_sum (map (λ it, FRAGILE_FEE_PER_UNIT * inject_Z (qty it))
              (List.filter fragile items)).

(** The [for threshold, fee in rules] loop of [_shipping_fee], with its
    early [return] and the [return 0.0] after the loop. *)
Fixpoint _shipping_fee_loop (rules : list (Z * Z)) (subtotal : Q) : Q :=
  match rules with
  | (threshold, fee) :: rules' =>
      if Qltb subtotal (inject_Z threshold) then inject_Z fee
      else _shipping_fee_loop rules' subtotal
  | [] => 0
  end.

Definition _shipping_fee (country : string) (subtotal : Q) : Q :=
  let rules := default DEFAULT_SHIPPING_RULES (SHIPPING_RULES !! country) in
  _shipping_fee_loop rules subtotal.

(** [inv.coupon or ""]: [None] and the empty string both give [""]. *)
Definition coupon_or_empty (c : option string) : string := default "" c.

Definition _discount (inv : Invoice) (subtotal : Q) (warnings : list string)
  : Q * list string :=
  let discount := 0 in
  (* membership discount *)
  let discount :=
    match MEMBERSHIP_DISCOUNT_RATE !! membership inv with
    | Some rate => discount + subtotal * rate
    | None =>
        (* non-member bulk discount *)
        if Qgtb subtotal (inject_Z NON_MEMBER_BULK_THRESHOLD)
        then discount + NON_MEMBER_BULK_DISCOUNT
        else discount
    end in
  (* coupon discount *)
  let code := strip (coupon_or_empty (coupon inv)) in
  if truthy code then
    match _coupon_rate !! code with
    | None => (discount, warnings ++ ["Unknown coupon"])
    | Some rate => (discount + subtotal * rate, warnings)
    end
  else (discount, warnings).

Definition _tax (country : string) (taxable_amount : Q) : Q :=
  let rate := default DEFAULT_TAX_RATE (TAX_RATE !! country) in
  let taxable_amount := py_max taxable_amount 0 in
  taxable_amount * rate.

(** ** Warnings *)

Definition _append_warnings (inv : Invoice) (subtotal : Q)
    (warnings : list string) : list string :=
  if Qgtb subtotal (inject_Z UPGRADE_HINT_THRESHOLD)
     && negb (bool_decide (membership inv ∈ dom MEMBERSHIP_DISCOUNT_RATE))
  then warnings ++ ["Consider membership upgrade"]
  else warnings.

(** ** Public API *)

Definition compute_total (inv : option Invoice) : result (Q * list string) :=
  let warnings : list string := [] in
  _validate_or_raise inv ;;
  match inv with
  | None => Raise (AttributeError "'NoneType' object has no attribute 'items'")
  | Some inv =>
      let subtotal := _subtotal (items inv) in
      let fragile_fee := _fragile_fee (items inv) in
      let shipping := _shipping_fee (country inv) subtotal in
      let '(discount, warnings) := _discount inv subtotal warnings in
      let tax := _tax (country inv) (subtotal - discount) in
      let total := subtotal + shipping + fragile_fee + tax - discount in
      let total := py_max total 0 in
      let warnings := _append_warnings inv subtotal warnings in
      mret (total, warnings)
  end.

(** ** The discount rule in the words of the specification *)

(** Membership discount, else the non-member bulk discount, else nothing:
    at most one of the two applies. *)
Definition membership_or_bulk_component (tier : string) (subtotal : Q) : Q :=
  match MEMBERSHIP_DISCOUNT_RATE !! tier with
  | Some rate => subtotal * rate
  | None =>
      if Qgtb subtotal (inject_Z NON_MEMBER_BULK_THRESHOLD)
      then NON_MEMBER_BULK_DISCOUNT
      else 0
  end.

(** The coupon component: [subtotal × couponRate] for a known code,
    nothing for an unknown or blank one. *)
Definition coupon_component (c : option string) (subtotal : Q) : Q :=
  let code := strip (coupon_or_empty c) in
  if truthy code then
    match _coupon_rate !! code with
    | Some rate => subtotal * rate
    | None => 0
    end
  else 0.

(** ** Shipping tables with descending fees *)

(** Fees are non-negative and none is larger than an earlier one. *)
Fixpoint fees_descend (rules : list (Z * Z)) : Prop :=
  match rules with
  | [] => True
  | (_, fee) :: rules' =>
      (0 <= fee)%Z ∧ Forall (λ rule, (rule.2 <= fee)%Z) rules'
      ∧ fees_descend rules'
  end.

(** ** Invoices that differ in their skus only *)

Definition same_item_except_sku (a b : LineItem) : Prop :=
  category a = category b ∧ unit_price a = unit_price b
  ∧ qty a = qty b ∧ fragile a = fragile b.

Definition same_invoice_except_skus (a b : Invoice) : Prop :=
  invoice_id a = invoice_id b ∧ customer_id a = customer_id b
  ∧ country a = country b ∧ membership a = membership b
  ∧ coupon a = coupon b
  ∧ Forall2 same_item_except_sku (items a) (items b).

(** ** White space *)

(** Strings made of white space only, the empty one included. *)
Fixpoint all_space (s : string) : bool :=
  match s with
  | EmptyString => true
  | String c s' => isspace c && all_space s'
  end.

(** ** Fragile units *)

(** The number of units on the fragile lines of an invoice. *)
Definition fragile_units (items : list LineItem) : Z :=
  fold_right Z.add 0%Z (map qty (List.filter fragile items)).

(** ** Items that are priced alike *)

Definition same_priced_item (a b : LineItem) : Prop :=
  unit_price a = unit_price b ∧ qty a = qty b ∧ fragile a = fragile b.

(** ** Sample invoices *)

(** The end-to-end example of the specification. *)
Definition us_example : Invoice :=
  mkInvoice "INV-1" "C-1" "US" "none" None
    [mkLineItem "A" "other" 250 1 false].

(** The message-format example of the specification: a missing invoice id
    and one item with quantity 0. *)
Definition bad_qty_example : Invoice :=
  mkInvoice "" "C-1" "TH" "gold" None [mkLineItem "SKU-9" "book" 10 0 false].

(** No identifiers and no items. *)
Definition no_ids_no_items : Invoice := mkInvoice "" "" "US" "none" None [].

(** A gold member with a known coupon; one item of 1000. *)
Definition gold_welcome_example : Invoice :=
  mkInvoice "INV-2" "C-2" "TH" "gold" (Some "WELCOME10")
    [mkLineItem "B" "electronics" 1000 1 false].

(** An unknown coupon on an otherwise valid invoice. *)
Definition bogus_coupon_example : Invoice :=
  mkInvoice "INV-3" "C-3" "JP" "none" (Some "BOGUS")
    [mkLineItem "C" "food" 40 3 true].

(** A known coupon wrapped in white space. *)
Definition padded_coupon_example : Invoice :=
  mkInvoice "INV-4" "C-4" "US" "silver" (Some "  VIP20 ")
    [mkLineItem "D" "book" 12000 1 false].

(** An unknown coupon, an unlisted tier and a subtotal above the hint
    threshold: both warnings at once. *)
Definition both_warnings_example : Invoice :=
  mkInvoice "INV-5" "C-5" "DE" "silver" (Some "BOGUS")
    [mkLineItem "E" "electronics" 6000 2 true;
     mkLineItem "F" "other" (1 # 2) 10 false].

(** [both_warnings_example] under other skus. *)
Definition both_warnings_relabelled : Invoice :=
  mkInvoice "INV-5" "C-5" "DE" "silver" (Some "BOGUS")
    [mkLineItem "X-1" "electronics" 6000 2 true;
     mkLineItem "X-2" "other" (1 # 2) 10 false].

(** * The pipeline on binary64 floats and Unicode strings

    The definitions above compute with exact rationals and 8-bit
    characters.  This module embeds the same source once more with the
    values Python computes with: [float] is IEEE 754 binary64 (rounding,
    infinities and NaN included), [int] is unbounded and its conversion
    to [float] can raise [OverflowError], and [str] is a sequence of
    Unicode code points. *)

Module Binary64.
#[local] Set Warnings "-inexact-float".
Local Open Scope float_scope.

(** ** Strings *)

(** A Python [str]: its code points. *)
Abbreviation str := (list N).

(** An ASCII literal of the source as a [str]. *)
Definition u (s : string) : str := map N_of_ascii (list_ascii_of_string s).

(** [str.isspace] on one code point, the white space [str.strip()]
    removes: U+0009..U+000D, U+001C..U+0020, U+0085, U+00A0, U+1680,
    U+2000..U+200A, U+2028, U+2029, U+202F, U+205F and U+3000. *)
Definition isspace (c : N) : bool :=
  ((0x09 <=? c) && (c <=? 0x0D) || (0x1C <=? c) && (c <=? 0x20)
   || (c =? 0x85) || (c =? 0xA0) || (c =? 0x1680)
   || (0x2000 <=? c) && (c <=? 0x200A) || (c =? 0x2028) || (c =? 0x2029)
   || (c =? 0x202F) || (c =? 0x205F) || (c =? 0x3000))%N.

Fixpoint lstrip (s : str) : str :=
  match s with
  | c :: s' => if isspace c then lstrip s' else s
  | [] => []
  end.

Definition rstrip (s : str) : str := reverse (lstrip (reverse s)).

(** [str.strip()] without argument. *)
Definition strip (s : str) : str := rstrip (lstrip s).

(** Truthiness of a string. *)
Definition truthy (s : str) : bool :=
  match s with
  | [] => false
  | _ :: _ => true
  end.

(** [sep.join(l)]. *)
Fixpoint join (sep : str) (l : list str) : str :=
  match l with
  | [] => []
  | x :: l' =>
      match l' with
      | [] => x
      | _ :: _ => x ++ sep ++ join sep l'
      end
  end.

(** ** Exceptions *)

Inductive exn :=
  | ValueError (msg : str)
  | OverflowError (msg : str)
  | AttributeError (msg : str).

Inductive result (A : Type) :=
  | Return (a : A)
  | Raise (e : exn).
Arguments Return {A} a.
Arguments Raise {A} e.

#[global] Instance result_ret : MRet result := λ A a, Return a.
#[global] Instance result_bind : MBind result := λ A B k r,
  match r with
  | Return a => k a
  | Raise e => Raise e
  end.

(** ** Numbers *)

(** The float nearest to an int (ties to even), infinite when the int is
    beyond the range of binary64. *)
Definition float_of_int (n : Z) : float :=
  SF2Prim (binary_normalize prec emax n 0%Z false).

Definition int_too_large : exn :=
  OverflowError (u "int too large to convert to float").

(** The conversion of an int operand of a float operation, and
    [float(n)]: an int beyond the range raises. *)
Definition to_float (n : Z) : result float :=
  let x := float_of_int n in
  if is_infinity x then Raise int_too_large else Return x.

(** The exact value of a finite non-zero float is [mantissa * 2 ^ e]. *)
Definition mantissa (negative : bool) (m : positive) : Z :=
  if negative then Z.neg m else Z.pos m.

(** [x < n] and [x > n] for a float [x] and an int [n]: Python compares
    the exact values, without converting [n]. *)
Definition float_lt_int (x : float) (n : Z) : bool :=
  match Prim2SF x with
  | S754_nan => false
  | S754_infinity negative => negative
  | S754_zero _ => (0 <? n)%Z
  | S754_finite s m e =>
      if (0 <=? e)%Z then (mantissa s m * 2 ^ e <? n)%Z
      else (mantissa s m <? n * 2 ^ (- e))%Z
  end.

Definition float_gt_int (x : float) (n : Z) : bool :=
  match Prim2SF x with
  | S754_nan => false
  | S754_infinity negative => negb negative
  | S754_zero _ => (n <? 0)%Z
  | S754_finite s m e =>
      if (0 <=? e)%Z then (n <? mantissa s m * 2 ^ e)%Z
      else (n * 2 ^ (- e) <? mantissa s m)%Z
  end.

(** Python's two-argument [max(a, b)] on floats: [b] when [b > a],
    otherwise [a]; a NaN first argument is kept. *)
Definition py_max (a b : float) : float := if a <? b then b else a.

(** ** Data model *)

Record LineItem := mkLineItem {
  sku : str;
  category : str;
  unit_price : float;
  qty : Z;
  fragile : bool
}.

Record Invoice := mkInvoice {
  invoice_id : str;
  customer_id : str;
  country : str;
  membership : str;
  coupon : option str;
  items : list LineItem
}.

(** [sum(term(it) for it in items)] from the accumulator [acc] on: the
    terms are computed and added one by one, left to right, in binary64;
    the first term that raises ends the sum.  (From version 3.12 on
    CPython's [sum] also carries a correction term for the rounding
    errors; the properties below hold for any way of rounding the sum.) *)
Fixpoint sum_loop (term : LineItem → result float) (acc : float)
    (items : list LineItem) : result float :=
  match items with
  | [] => Return acc
  | it :: items' => x ← term it; sum_loop term (acc + x) items'
  end.

(** ** Constants and configuration *)

Definition ALLOWED_CATEGORIES : gset str :=
  {[ u "book"; u "food"; u "electronics"; u "other" ]}.

Definition FRAGILE_FEE_PER_UNIT : float := 5.0.

Definition SHIPPING_RULES : gmap str (list (Z * Z)) :=
  <[u "TH" := [(500, 60)%Z] ]>
  (<[u "JP" := [(4000, 600)%Z] ]>
  (<[u "US" := [(100, 15)%Z; (300, 8)%Z] ]>
  (<[u "DEFAULT" := [(200, 25)%Z] ]> ∅))).

Definition TAX_RATE : gmap str float :=
  <[u "TH" := 0.07]>
  (<[u "JP" := 0.10]>
  (<[u "US" := 0.08]>
  (<[u "DEFAULT" := 0.05]> ∅))).

Definition MEMBERSHIP_DISCOUNT_RATE : gmap str float :=
  <[u "gold" := 0.03]> (<[u "platinum" := 0.05]> ∅).

Definition NON_MEMBER_BULK_THRESHOLD : Z := 3000.
Definition NON_MEMBER_BULK_DISCOUNT : float := 20.0.
Definition UPGRADE_HINT_THRESHOLD : Z := 10000.

Definition _coupon_rate : gmap str float :=
  <[u "WELCOME10" := 0.10]>
  (<[u "VIP20" := 0.20]>
  (<[u "STUDENT5" := 0.05]> ∅)).

(** The tables hold the key "DEFAULT", the only one the source
    subscripts. *)
Definition DEFAULT_SHIPPING_RULES : list (Z * Z) :=
  default [] (SHIPPING_RULES !! u "DEFAULT").
Definition DEFAULT_TAX_RATE : float :=
  default 0 (TAX_RATE !! u "DEFAULT").

(** ** Validation *)

Definition item_problems (it : LineItem) : list str :=
  (if truthy (sku it) then [] else [u "Item sku is missing"])
  ++ (if (qty it <=? 0)%Z then [u "Invalid qty for " ++ sku it] else [])
  ++ (if float_lt_int (unit_price it) 0
      then [u "Invalid price for " ++ sku it] else [])
  ++ (if decide (category it ∈ ALLOWED_CATEGORIES) then []
      else [u "Unknown category for " ++ sku it]).

Definition _validate (inv : option Invoice) : list str :=
  match inv with
  | None => [u "Invoice is missing"]
  | Some inv =>
      let problems :=
        (if truthy (invoice_id inv) then [] else [u "Missing invoice_id"])
        ++ (if truthy (customer_id inv) then []
            else [u "Missing customer_id"]) in
      match items inv with
      | [] => problems ++ [u "Invoice must contain items"]
      | its => problems ++ concat (map item_problems its)
      end
  end.

Definition _validate_or_raise (inv : option Invoice) : result unit :=
  match _validate inv with
  | [] => Return tt
  | problems => Raise (ValueError (join (u "; ") problems))
  end.

(** ** Calculations *)

Definition _subtotal (items : list LineItem) : result float :=
  sum_loop (λ it, q ← to_float (qty it); mret (unit_price it * q)) 0 items.

Definition _fragile_fee (items : list LineItem) : result float :=
  sum_loop (λ it, q ← to_float (qty it); mret (FRAGILE_FEE_PER_UNIT * q))
           0 (List.filter fragile items).

Fixpoint _shipping_fee_loop (rules : list (Z * Z)) (subtotal : float)
  : result float :=
  match rules with
  | (threshold, fee) :: rules' =>
      if float_lt_int subtotal threshold then to_float fee
      else _shipping_fee_loop rules' subtotal
  | [] => Return 0.0
  end.

Definition _shipping_fee (country : str) (subtotal : float) : result float :=
  let rules := default DEFAULT_SHIPPING_RULES (SHIPPING_RULES !! country) in
  _shipping_fee_loop rules subtotal.

(** [inv.coupon or ""]. *)
Definition coupon_or_empty (c : option str) : str := default [] c.

(** The value of [discount] when the coupon step starts (lines 128-137). *)
Definition discount_before_coupon (inv : Invoice) (subtotal : float) : float :=
  let discount := 0.0 in
  match MEMBERSHIP_DISCOUNT_RATE !! membership inv with
  | Some rate => discount + subtotal * rate
  | None =>
      if float_gt_int subtotal NON_MEMBER_BULK_THRESHOLD
      then discount + NON_MEMBER_BULK_DISCOUNT
      else discount
  end.

Definition _discount (inv : Invoice) (subtotal : float) (warnings : list str)
  : float * list str :=
  let discount := 0.0 in
  (* membership discount *)
  let discount :=
    match MEMBERSHIP_DISCOUNT_RATE !! membership inv with
    | Some rate => discount + subtotal * rate
    | None =>
        (* non-member bulk discount *)
        if float_gt_int subtotal NON_MEMBER_BULK_THRESHOLD
        then discount + NON_MEMBER_BULK_DISCOUNT
        else discount
    end in
  (* coupon discount *)
  let code := strip (coupon_or_empty (coupon inv)) in
  if truthy code then
    match _coupon_rate !! code with
    | None => (discount, warnings ++ [u "Unknown coupon"])
    | Some rate => (discount + subtotal * rate, warnings)
    end
  else (discount, warnings).

Definition _tax (country : str) (taxable_amount : float) : float :=
  let rate := default DEFAULT_TAX_RATE (TAX_RATE !! country) in
  let taxable_amount := py_max taxable_amount 0.0 in
  taxable_amount * rate.

(** ** Warnings *)

Definition _append_warnings (inv : Invoice) (subtotal : float)
    (warnings : list str) : list str :=
  if float_gt_int subtotal UPGRADE_HINT_THRESHOLD
     && negb (bool_decide (membership inv ∈ dom MEMBERSHIP_DISCOUNT_RATE))
  then warnings ++ [u "Consider membership upgrade"]
  else warnings.

(** ** Public API *)

Definition compute_total (inv : option Invoice) : result (float * list str) :=
  let warnings : list str := [] in
  _validate_or_raise inv ;;
  match inv with
  | None =>
      Raise (AttributeError (u "'NoneType' object has no attribute 'items'"))
  | Some inv =>
      subtotal ← _subtotal (items inv);
      fragile_fee ← _fragile_fee (items inv);
      shipping ← _shipping_fee (country inv) subtotal;
      let '(discount, warnings) := _discount inv subtotal warnings in
      let tax := _tax (country inv) (subtotal - discount) in
      let total := subtotal + shipping + fragile_fee + tax - discount in
      let total := py_max total 0.0 in
      let warnings := _append_warnings inv subtotal warnings in
      mret (total, warnings)
  end.

(** ** What the validator accepts *)

(** An int that converts to a float. *)
Definition fits_float (n : Z) : Prop := is_infinity (float_of_int n) = false.

(** An item on which none of the four checks of the loop fires. *)
Definition valid_item (it : LineItem) : Prop :=
  sku it ≠ [] ∧ (0 < qty it)%Z ∧ float_lt_int (unit_price it) 0 = false
  ∧ category it ∈ ALLOWED_CATEGORIES.

(** ** Sample invoices *)

Definition us_example : Invoice :=
  mkInvoice (u "INV-1") (u "C-1") (u "US") (u "none") None
    [mkLineItem (u "A") (u "other") 250 1 false].

(** A price that is not a number. *)
Definition nan_price_example : Invoice :=
  mkInvoice (u "INV-6") (u "C-6") (u "US") (u "none") None
    [mkLineItem (u "A") (u "other") nan 1 false].

(** Ten units at 1e308 for a gold member: the subtotal overflows. *)
Definition huge_price_example : Invoice :=
  mkInvoice (u "INV-7") (u "C-7") (u "TH") (u "gold") None
    [mkLineItem (u "A") (u "other") 1e308 10 false].

(** A quantity beyond the range of binary64. *)
Definition huge_qty_example : Invoice :=
  mkInvoice (u "INV-8") (u "C-8") (u "JP") (u "none") None
    [mkLineItem (u "A") (u "book") 1 (2 ^ 1024) false].

(** A known coupon between ASCII blanks, for an unlisted tier. *)
Definition padded_coupon_example : Invoice :=
  mkInvoice (u "INV-4") (u "C-4") (u "US") (u "silver") (Some (u "  VIP20 "))
    [mkLineItem (u "D") (u "book") 12000 1 false].

(** An unknown coupon between an EM SPACE and an IDEOGRAPHIC SPACE. *)
Definition wide_space_coupon_example : Invoice :=
  mkInvoice (u "INV-9") (u "C-9") (u "JP") (u "gold")
    (Some ([0x2003%N] ++ u "BOGUS" ++ [0x3000%N]))
    [mkLineItem (u "C") (u "food") 40 3 true].

End Binary64.

(** * Properties *)

(** ** Sanity checks on the specification's examples *)

Example us_example_total :
  match compute_total (Some us_example) with
  | Return (total, warnings) => total == 278 ∧ warnings = []
  | Raise _ => False
  end.
Proof. vm_compute. split; reflexivity. Qed.

(** ** Numbers *)

Lemma Qltb_lt (a b : Q) : Qltb a b = true ↔ a < b.
Proof.
  unfold Qltb. rewrite Qlt_alt.
  destruct (a ?= b); split; congruence.
Qed.

Lemma Qltb_ge (a b : Q) : Qltb a b = false ↔ b <= a.
Proof.
  split; intros H.
  - destruct (Qlt_le_dec a b) as [Hlt | Hle]; [| exact Hle].
    apply Qltb_lt in Hlt. congruence.
  - destruct (Qltb a b) eqn:E; [| reflexivity].
    apply Qltb_lt in E. exfalso. apply (Qlt_not_le _ _ E H).
Qed.

(** Python's [max] agrees with the mathematical maximum. *)
Lemma py_max_Qmax (a b : Q) : py_max a b = Qmax a b.
Proof.
  unfold py_max, Qgtb, Qltb, Qmax, GenericMinMax.gmax.
  destruct (a ?= b); reflexivity.
Qed.

(** ** The validation gate *)

Lemma validate_or_raise_valid (inv : option Invoice) :
  _validate inv = [] → _validate_or_raise inv = Return tt.
Proof. unfold _validate_or_raise. intros ->. reflexivity. Qed.

Lemma validate_or_raise_invalid (inv : option Invoice) :
  _validate inv ≠ [] →
  _validate_or_raise inv
  = Raise (ValueError (String.concat "; " (_validate inv))).
Proof.
  unfold _validate_or_raise. destruct (_validate inv); [congruence | reflexivity].
Qed.

(** What [compute_total] returns once validation has passed: the body of
    the function after its first statement. *)
Lemma compute_total_valid (inv : Invoice) :
  _validate (Some inv) = [] →
  let subtotal := _subtotal (items inv) in
  let fragile_fee := _fragile_fee (items inv) in
  let shipping := _shipping_fee (country inv) subtotal in
  let discount := (_discount inv subtotal []).1 in
  let warnings := (_discount inv subtotal []).2 in
  let tax := _tax (country inv) (subtotal - discount) in
  compute_total (Some inv)
  = Return (py_max (subtotal + shipping + fragile_fee + tax - discount) 0,
            _append_warnings inv subtotal warnings).
Proof.
  intros Hvalid. unfold compute_total.
  rewrite (validate_or_raise_valid _ Hvalid). simpl.
  destruct (_discount inv (_subtotal (items inv)) []) as [discount warnings].
  reflexivity.
Qed.

(** ** Validation errors *)

Example bad_qty_example_message :
  compute_total (Some bad_qty_example)
  = Raise (ValueError "Missing invoice_id; Invalid qty for SKU-9").
Proof. vm_compute. reflexivity. Qed.

Example missing_invoice_message :
  compute_total None = Raise (ValueError "Invoice is missing").
Proof. vm_compute. reflexivity. Qed.


(** ** Empty invoices *)

(** With both identifiers missing as well, an invoice without items gets
    three problems, not one. *)
Lemma validate_empty_items_not_single :
  ¬ (∀ inv : Invoice,
       items inv = [] → _validate (Some inv) = ["Invoice must contain items"]).
Proof.
  intros H. specialize (H no_ids_no_items eq_refl).
  vm_compute in H. discriminate H.
Qed.

Example no_ids_no_items_problems :
  _validate (Some no_ids_no_items)
  = ["Missing invoice_id"; "Missing customer_id"; "Invoice must contain items"].
Proof. vm_compute. reflexivity. Qed.

(** C3 (amended): for every invoice whose items sequence is empty, the
    validator returns the problems of the two identifier checks, if any,
    followed by "Invoice must contain items" as the last problem, and no
    per-item problem; when both identifiers are non-empty that is the only
    problem. *)
Theorem validate_empty_items (inv : Invoice) :
  items inv = [] →
  _validate (Some inv)
  = (if truthy (invoice_id inv) then [] else ["Missing invoice_id"])
    ++ (if truthy (customer_id inv) then [] else ["Missing customer_id"])
    ++ ["Invoice must contain items"]
  ∧ (invoice_id inv ≠ "" → customer_id inv ≠ "" →
     _validate (Some inv) = ["Invoice must contain items"]).
Proof.
  intros Hempty. unfold _validate. rewrite Hempty.
  split; [rewrite <- app_assoc; reflexivity |].
  intros Hid Hcust.
  destruct (invoice_id inv); [congruence |].
  destruct (customer_id inv); [congruence |].
  reflexivity.
Qed.

Lemma validate_empty_items_witness :
  items (mkInvoice "INV-7" "C-7" "JP" "gold" (Some "VIP20") []) = []
  ∧ _validate (Some (mkInvoice "INV-7" "C-7" "JP" "gold" (Some "VIP20") []))
    = ["Invoice must contain items"].
Proof.
  split; [reflexivity |].
  apply (validate_empty_items
           (mkInvoice "INV-7" "C-7" "JP" "gold" (Some "VIP20") []));
    [reflexivity | discriminate | discriminate].
Defined.

(** ** Discount *)

Example strip_padded : strip ("  VIP20 " ++ String "010" "") = "VIP20".
Proof. reflexivity. Qed.

Example strip_inner_space : strip " A B " = "A B".
Proof. reflexivity. Qed.

(** The value of [discount] before the coupon step of [_discount]. *)
Lemma discount_before_coupon (inv : Invoice) (subtotal : Q) (warnings : list string) :
  let code := strip (coupon_or_empty (coupon inv)) in
  ∃ base,
    base == membership_or_bulk_component (membership inv) subtotal
    ∧ _discount inv subtotal warnings
      = if truthy code then
          match _coupon_rate !! code with
          | None => (base, warnings ++ ["Unknown coupon"])
          | Some rate => (base + subtotal * rate, warnings)
          end
        else (base, warnings).
Proof.
  cbv zeta. unfold _discount, membership_or_bulk_component.
  destruct (MEMBERSHIP_DISCOUNT_RATE !! membership inv) as [rate |].
  - eexists. split; [| reflexivity]. ring.
  - destruct (Qgtb subtotal (inject_Z NON_MEMBER_BULK_THRESHOLD)).
    + eexists. split; [| reflexivity]. ring.
    + eexists. split; [| reflexivity]. reflexivity.
Qed.

Lemma truthy_true (s : string) : truthy s = true ↔ s ≠ "".
Proof. destruct s; simpl; split; congruence. Qed.

Lemma truthy_false (s : string) : truthy s = false ↔ s = "".
Proof. destruct s; simpl; split; congruence. Qed.

Lemma discount_value (inv : Invoice) (subtotal : Q) (warnings : list string) :
  (_discount inv subtotal warnings).1
  == membership_or_bulk_component (membership inv) subtotal
     + coupon_component (coupon inv) subtotal.
Proof.
  destruct (discount_before_coupon inv subtotal warnings) as (base & Hbase & ->).
  unfold coupon_component.
  destruct (truthy _); [destruct (_coupon_rate !! _) |]; simpl;
    rewrite Hbase; ring.
Qed.

(** C4: the discount is the sum of one of two mutually exclusive
    components (subtotal × membershipRate when the tier is a key of the
    membership table; otherwise the flat bulk discount when subtotal >
    bulkThreshold, otherwise nothing) and the coupon component.  The bulk
    discount is not added for a tier of the table, whatever the subtotal.
    With subtotal 1000, tier "gold" and coupon "WELCOME10" the discount is
    130.  This holds for every invoice, subtotal and warnings list, hence
    for the call [compute_total] makes on a valid invoice. *)
Theorem discount_components (inv : Invoice) (subtotal : Q) (warnings : list string) :
  let discount := (_discount inv subtotal warnings).1 in
  let coupon_part := coupon_component (coupon inv) subtotal in
  let tier := MEMBERSHIP_DISCOUNT_RATE !! membership inv in
  (∀ rate, tier = Some rate → discount == subtotal * rate + coupon_part)
  ∧ (tier = None → inject_Z NON_MEMBER_BULK_THRESHOLD < subtotal →
     discount == NON_MEMBER_BULK_DISCOUNT + coupon_part)
  ∧ (tier = None → subtotal <= inject_Z NON_MEMBER_BULK_THRESHOLD →
     discount == 0 + coupon_part)
  ∧ (membership inv = "gold" → coupon inv = Some "WELCOME10" →
     subtotal == 1000 → discount == 130).
Proof.
  cbv zeta. pose proof (discount_value inv subtotal warnings) as Hd.
  unfold membership_or_bulk_component in Hd.
  repeat split.
  - intros rate Htier. rewrite Htier in Hd. exact Hd.
  - intros Htier Hbulk. rewrite Htier in Hd.
    apply Qltb_lt in Hbulk. unfold Qgtb in Hd. rewrite Hbulk in Hd. exact Hd.
  - intros Htier Hsmall. rewrite Htier in Hd.
    apply Qltb_ge in Hsmall. unfold Qgtb in Hd. rewrite Hsmall in Hd. exact Hd.
  - intros Hgold Hcoupon Hsub. rewrite Hgold, Hcoupon in Hd.
    change (MEMBERSHIP_DISCOUNT_RATE !! "gold") with (Some (3 # 100)) in Hd.
    change (coupon_component (Some "WELCOME10") subtotal)
      with (subtotal * (10 # 100)) in Hd.
    rewrite Hd, Hsub. reflexivity.
Qed.

Lemma discount_components_witness :
  (_discount gold_welcome_example 1000 []).1 == 130.
Proof.
  apply (discount_components gold_welcome_example 1000 []); reflexivity.
Defined.

(** The trimmed code is the one looked up: a padded known coupon counts. *)
Example padded_coupon_discount :
  (_discount padded_coupon_example 12000 []).1 == 20 + 12000 * (20 # 100)
  ∧ (_discount padded_coupon_example 12000 []).2 = [].
Proof. split; reflexivity. Qed.

(** ** Shipping *)

Lemma shipping_rules_default :
  SHIPPING_RULES !! "DEFAULT" = Some DEFAULT_SHIPPING_RULES.
Proof. reflexivity. Qed.

(** The loop returns the fee of the first entry whose threshold exceeds
    the subtotal, and 0 when there is none. *)
Lemma shipping_fee_loop_first_match (rules : list (Z * Z)) (subtotal : Q) :
  (∃ skipped threshold fee rest,
      rules = skipped ++ (threshold, fee) :: rest
      ∧ Forall (λ rule, inject_Z rule.1 <= subtotal) skipped
      ∧ subtotal < inject_Z threshold
      ∧ _shipping_fee_loop rules subtotal = inject_Z fee)
  ∨ (Forall (λ rule, inject_Z rule.1 <= subtotal) rules
     ∧ _shipping_fee_loop rules subtotal = 0).
Proof.
  induction rules as [| [threshold fee] rules IH]; simpl.
  - right. split; [constructor | reflexivity].
  - destruct (Qltb subtotal (inject_Z threshold)) eqn:Hcmp.
    + left. exists [], threshold, fee, rules.
      apply Qltb_lt in Hcmp. repeat split; [constructor | exact Hcmp].
    + apply Qltb_ge in Hcmp.
      destruct IH
        as [(skipped & t & f & rest & -> & Hskip & Hlt & Hfee) | [Hall Hfee]].
      * left. exists ((threshold, fee) :: skipped), t, f, rest.
        repeat split; [constructor; assumption | exact Hlt | exact Hfee].
      * right. split; [constructor; assumption | exact Hfee].
Qed.

(** C6: for every country string and subtotal, the shipping fee is the
    fee of the first (threshold, fee) entry, in list order, of the rule
    list of the country (the list of "DEFAULT" when the country is not a
    key of the table) whose threshold is strictly greater than the
    subtotal; when no entry matches the fee is 0. *)
Theorem shipping_fee_first_match (c : string) (subtotal : Q) :
  ∃ rules,
    (SHIPPING_RULES !! c = Some rules
     ∨ SHIPPING_RULES !! c = None ∧ SHIPPING_RULES !! "DEFAULT" = Some rules)
    ∧ ((∃ skipped threshold fee rest,
          rules = skipped ++ (threshold, fee) :: rest
          ∧ Forall (λ rule, inject_Z rule.1 <= subtotal) skipped
          ∧ subtotal < inject_Z threshold
          ∧ _shipping_fee c subtotal = inject_Z fee)
       ∨ (Forall (λ rule, inject_Z rule.1 <= subtotal) rules
          ∧ _shipping_fee c subtotal = 0)).
Proof.
  unfold _shipping_fee.
  destruct (SHIPPING_RULES !! c) as [rules |] eqn:Hlookup; simpl.
  - exists rules. split; [left; reflexivity |].
    apply shipping_fee_loop_first_match.
  - exists DEFAULT_SHIPPING_RULES.
    split; [right; split; [reflexivity | apply shipping_rules_default] |].
    apply shipping_fee_loop_first_match.
Qed.

Example shipping_us_250 : _shipping_fee "US" 250 = 8.
Proof. reflexivity. Qed.

Example shipping_us_50 : _shipping_fee "US" 50 = 15.
Proof. reflexivity. Qed.

Example shipping_us_300 : _shipping_fee "US" 300 = 0.
Proof. reflexivity. Qed.

Example shipping_unknown_country : _shipping_fee "FR" (1999 # 10) = 25.
Proof. reflexivity. Qed.

(** A fee charged by the loop is bounded by any bound on the table's fees. *)
Lemma shipping_fee_loop_bound (rules : list (Z * Z)) (subtotal : Q) (bound : Z) :
  (0 <= bound)%Z → Forall (λ rule, (rule.2 <= bound)%Z) rules →
  _shipping_fee_loop rules subtotal <= inject_Z bound.
Proof.
  intros Hbound Hall.
  induction Hall as [| [threshold fee] rules Hfee _ IH]; simpl.
  - change 0 with (inject_Z 0). rewrite <- Zle_Qle. exact Hbound.
  - destruct (Qltb _ _); [| exact IH].
    rewrite <- Zle_Qle. exact Hfee.
Qed.

(** On a table with descending fees the loop is non-increasing. *)
Lemma shipping_fee_loop_antitone (rules : list (Z * Z)) (s1 s2 : Q) :
  fees_descend rules → s1 <= s2 →
  _shipping_fee_loop rules s2 <= _shipping_fee_loop rules s1.
Proof.
  intros Hdesc Hle.
  induction rules as [| [threshold fee] rules IH]; simpl.
  - apply Qle_refl.
  - destruct Hdesc as (Hfee & Hrest & Hdesc).
    destruct (Qltb s1 (inject_Z threshold)) eqn:H1.
    + destruct (Qltb s2 (inject_Z threshold)); [apply Qle_refl |].
      apply shipping_fee_loop_bound; assumption.
    + apply Qltb_ge in H1.
      assert (H2 : Qltb s2 (inject_Z threshold) = false).
      { apply Qltb_ge. apply Qle_trans with s1; assumption. }
      rewrite H2. apply IH. exact Hdesc.
Qed.

Lemma shipping_rules_descend :
  map_Forall (λ _ rules, fees_descend rules) SHIPPING_RULES.
Proof.
  unfold SHIPPING_RULES.
  repeat (apply map_Forall_insert_2;
          [simpl; repeat split; try lia; repeat constructor; simpl; lia |]).
  apply map_Forall_empty.
Qed.

(** C8: with the shipped tables, for every country (a key of the shipping
    table or not, the latter priced by the default rules) and all
    subtotals s1 ≤ s2, the shipping fee at s1 is at least the fee at s2. *)
Theorem shipping_fee_antitone (c : string) (s1 s2 : Q) :
  s1 <= s2 → _shipping_fee c s2 <= _shipping_fee c s1.
Proof.
  intros Hle. unfold _shipping_fee.
  apply shipping_fee_loop_antitone; [| exact Hle].
  destruct (SHIPPING_RULES !! c) as [rules |] eqn:Hlookup; simpl.
  - exact (shipping_rules_descend c rules Hlookup).
  - exact (shipping_rules_descend "DEFAULT" _ shipping_rules_default).
Qed.

Lemma shipping_fee_antitone_witness :
  99 <= 100 ∧ _shipping_fee "US" 100 <= _shipping_fee "US" 99.
Proof.
  split; [discriminate |].
  apply (shipping_fee_antitone "US" 99 100). discriminate.
Defined.

(** ** Tax *)

Lemma tax_rate_default : TAX_RATE !! "DEFAULT" = Some DEFAULT_TAX_RATE.
Proof. reflexivity. Qed.


(** Tax on the discounted amount, not on the subtotal: 1000 of goods for
    a gold member with WELCOME10 in TH are taxed on 870. *)
Example gold_welcome_total :
  match compute_total (Some gold_welcome_example) with
  | Return (total, warnings) =>
      total == 1000 + 0 + 0 + 870 * (7 # 100) - 130 ∧ warnings = []
  | Raise _ => False
  end.
Proof. vm_compute. split; reflexivity. Qed.

Example tax_negative_amount : _tax "JP" (-50) == 0.
Proof. reflexivity. Qed.


(** ** Warnings *)

Lemma discount_warnings (inv : Invoice) (subtotal : Q) (warnings : list string) :
  (_discount inv subtotal warnings).2 = warnings
  ∨ (_discount inv subtotal warnings).2 = warnings ++ ["Unknown coupon"].
Proof.
  destruct (discount_before_coupon inv subtotal warnings) as (base & _ & ->).
  cbv zeta.
  destruct (truthy _); [destruct (_coupon_rate !! _) |]; simpl; auto.
Qed.

Lemma append_warnings_cases (inv : Invoice) (subtotal : Q) (warnings : list string) :
  _append_warnings inv subtotal warnings = warnings
  ∨ _append_warnings inv subtotal warnings
    = warnings ++ ["Consider membership upgrade"].
Proof. unfold _append_warnings. destruct (_ && _); auto. Qed.

Lemma returned_warnings_cases (inv : Invoice) (subtotal : Q) :
  let warnings := _append_warnings inv subtotal (_discount inv subtotal []).2 in
  warnings = []
  ∨ warnings = ["Unknown coupon"]
  ∨ warnings = ["Consider membership upgrade"]
  ∨ warnings = ["Unknown coupon"; "Consider membership upgrade"].
Proof.
  cbv zeta.
  destruct (discount_warnings inv subtotal []) as [-> | ->];
    match goal with
    | |- context [_append_warnings inv subtotal ?ws] =>
        destruct (append_warnings_cases inv subtotal ws) as [-> | ->]
    end; simpl; auto.
Qed.

Example both_warnings_example_warnings :
  match compute_total (Some both_warnings_example) with
  | Return (_, warnings) =>
      warnings = ["Unknown coupon"; "Consider membership upgrade"]
  | Raise _ => False
  end.
Proof. vm_compute. reflexivity. Qed.



(** ** Skus *)

Section ExceptSku.
Variables a b : Invoice.
Hypothesis Hsame : same_invoice_except_skus a b.

Lemma item_amounts_except_sku :
  map (λ it, unit_price it * inject_Z (qty it)) (items a)
  = map (λ it, unit_price it * inject_Z (qty it)) (items b).
Proof.
  destruct Hsame as (_ & _ & _ & _ & _ & Hitems).
  induction Hitems as [| x y xs ys (_ & Hprice & Hqty & _) _ IH]; simpl.
  - reflexivity.
  - rewrite Hprice, Hqty, IH. reflexivity.
Qed.

Lemma fragile_amounts_except_sku :
  map (λ it, FRAGILE_FEE_PER_UNIT * inject_Z (qty it))
      (List.filter fragile (items a))
  = map (λ it, FRAGILE_FEE_PER_UNIT * inject_Z (qty it))
        (List.filter fragile (items b)).
Proof.
  destruct Hsame as (_ & _ & _ & _ & _ & Hitems).
  induction Hitems as [| x y xs ys (_ & _ & Hqty & Hfragile) _ IH]; simpl.
  - reflexivity.
  - rewrite Hfragile. destruct (fragile y); simpl; [rewrite Hqty, IH |];
      auto.
Qed.

Lemma subtotal_except_sku : _subtotal (items a) = _subtotal (items b).
Proof. unfold _subtotal. rewrite item_amounts_except_sku. reflexivity. Qed.

Lemma fragile_fee_except_sku :
  _fragile_fee (items a) = _fragile_fee (items b).
Proof.
  unfold _fragile_fee. rewrite fragile_amounts_except_sku. reflexivity.
Qed.

Lemma discount_except_sku (subtotal : Q) (warnings : list string) :
  _discount a subtotal warnings = _discount b subtotal warnings.
Proof.
  destruct Hsame as (_ & _ & _ & Htier & Hcoupon & _).
  unfold _discount. rewrite Htier, Hcoupon. reflexivity.
Qed.

Lemma append_warnings_except_sku (subtotal : Q) (warnings : list string) :
  _append_warnings a subtotal warnings = _append_warnings b subtotal warnings.
Proof.
  destruct Hsame as (_ & _ & _ & Htier & _).
  unfold _append_warnings. rewrite Htier. reflexivity.
Qed.
End ExceptSku.



(** * Further properties of the pipeline *)

(** ** Sums over the items *)

Lemma fold_left_Qplus_shift (xs : list Q) (a : Q) :
  fold_left Qplus xs a == a + fold_left Qplus xs 0.
Proof.
  revert a. induction xs as [| x xs IH]; intros a; simpl.
  - ring.
  - rewrite (IH (a + x)), (IH (0 + x)). ring.
Qed.

Lemma py_sum_cons (x : Q) (xs : list Q) : py_sum (x :: xs) == x + py_sum xs.
Proof.
  unfold py_sum. simpl. rewrite fold_left_Qplus_shift. ring.
Qed.

Lemma fragile_fee_cons (it : LineItem) (its : list LineItem) :
  _fragile_fee (it :: its)
  == (if fragile it then FRAGILE_FEE_PER_UNIT * inject_Z (qty it) else 0)
     + _fragile_fee its.
Proof.
  unfold _fragile_fee. simpl. destruct (fragile it); simpl.
  - apply py_sum_cons.
  - ring.
Qed.


(** ** The rates of the tables *)

Lemma membership_rate_cases (tier : string) (rate : Q) :
  MEMBERSHIP_DISCOUNT_RATE !! tier = Some rate →
  rate = 3 # 100 ∨ rate = 5 # 100.
Proof.
  unfold MEMBERSHIP_DISCOUNT_RATE.
  rewrite !lookup_insert_Some, lookup_empty. intuition congruence.
Qed.

Lemma coupon_rate_cases (code : string) (rate : Q) :
  _coupon_rate !! code = Some rate →
  rate = 10 # 100 ∨ rate = 20 # 100 ∨ rate = 5 # 100.
Proof.
  unfold _coupon_rate.
  rewrite !lookup_insert_Some, lookup_empty. intuition congruence.
Qed.

(** ** Bounds on the discount *)

Lemma membership_or_bulk_bounds (tier : string) (subtotal : Q) :
  0 <= subtotal →
  0 <= membership_or_bulk_component tier subtotal
  ∧ membership_or_bulk_component tier subtotal
    <= Qmax (subtotal * (5 # 100)) (if Qgtb subtotal 3000 then 20 else 0).
Proof.
  intros Hs. unfold membership_or_bulk_component.
  destruct (MEMBERSHIP_DISCOUNT_RATE !! tier) as [rate |] eqn:Htier.
  - assert (Hrate : subtotal * rate <= subtotal * (5 # 100)).
    { destruct (membership_rate_cases _ _ Htier) as [-> | ->]; lra. }
    assert (Hpos : 0 <= subtotal * rate).
    { destruct (membership_rate_cases _ _ Htier) as [-> | ->]; lra. }
    split; [exact Hpos |].
    apply Qle_trans with (subtotal * (5 # 100)); [exact Hrate |].
    apply Q.le_max_l.
  - change (inject_Z NON_MEMBER_BULK_THRESHOLD) with 3000.
    unfold NON_MEMBER_BULK_DISCOUNT.
    destruct (Qgtb subtotal 3000).
    + split; [discriminate | apply Q.le_max_r].
    + split; [apply Qle_refl | apply Q.le_max_r].
Qed.

Lemma coupon_component_bounds (c : option string) (subtotal : Q) :
  0 <= subtotal →
  0 <= coupon_component c subtotal
  ∧ coupon_component c subtotal <= subtotal * (20 # 100).
Proof.
  intros Hs. unfold coupon_component.
  destruct (truthy _); [| lra].
  destruct (_coupon_rate !! _) as [rate |] eqn:Hcode; [| lra].
  destruct (coupon_rate_cases _ _ Hcode) as [-> | [-> | ->]]; lra.
Qed.

Lemma discount_le_subtotal (inv : Invoice) (subtotal : Q) (warnings : list string) :
  0 <= subtotal → (_discount inv subtotal warnings).1 <= subtotal.
Proof.
  intros Hs. rewrite discount_value.
  destruct (membership_or_bulk_bounds (membership inv) subtotal Hs) as [_ Hm].
  destruct (coupon_component_bounds (coupon inv) subtotal Hs) as [_ Hc].
  apply Q.max_le in Hm. destruct Hm as [Hm | Hm]; [lra |].
  destruct (Qgtb subtotal 3000) eqn:Hbulk; [| lra].
  apply Qltb_lt in Hbulk. lra.
Qed.

(** X4: for a non-negative subtotal, with the shipped rate tables, the
    discount is non-negative and never larger than the subtotal: the
    membership rates are at most 5%, the coupon rates at most 20%, and the
    flat bulk discount of 20 applies above 3000 only. *)
Theorem discount_within_subtotal (inv : Invoice) (subtotal : Q)
    (warnings : list string) :
  0 <= subtotal →
  0 <= (_discount inv subtotal warnings).1
  ∧ (_discount inv subtotal warnings).1 <= subtotal.
Proof.
  intros Hs. split; [| apply discount_le_subtotal; exact Hs].
  rewrite discount_value.
  destruct (membership_or_bulk_bounds (membership inv) subtotal Hs) as [Hm _].
  destruct (coupon_component_bounds (coupon inv) subtotal Hs) as [Hc _].
  lra.
Qed.

Lemma discount_within_subtotal_witness :
  0 <= 12000
  ∧ 0 <= (_discount padded_coupon_example 12000 []).1
  ∧ (_discount padded_coupon_example 12000 []).1 <= 12000.
Proof.
  split; [discriminate |].
  apply (discount_within_subtotal padded_coupon_example 12000 []).
  discriminate.
Defined.

(** ** Bounds on the shipping fee *)

Lemma shipping_fee_loop_nonneg (rules : list (Z * Z)) (subtotal : Q) :
  fees_descend rules → 0 <= _shipping_fee_loop rules subtotal.
Proof.
  induction rules as [| [threshold fee] rules IH]; simpl.
  - intros _. apply Qle_refl.
  - intros (Hfee & _ & Hrest). destruct (Qltb _ _); [| exact (IH Hrest)].
    change 0 with (inject_Z 0). rewrite <- Zle_Qle. exact Hfee.
Qed.

Lemma shipping_fee_nonneg (c : string) (subtotal : Q) :
  0 <= _shipping_fee c subtotal.
Proof.
  unfold _shipping_fee. apply shipping_fee_loop_nonneg.
  destruct (SHIPPING_RULES !! c) as [rules |] eqn:Hlookup; simpl.
  - exact (shipping_rules_descend c rules Hlookup).
  - exact (shipping_rules_descend "DEFAULT" _ shipping_rules_default).
Qed.

(** Past every threshold of the table the loop charges nothing. *)
Lemma shipping_fee_loop_free (rules : list (Z * Z)) (subtotal : Q) :
  Forall (λ rule, inject_Z rule.1 <= subtotal) rules →
  _shipping_fee_loop rules subtotal = 0.
Proof.
  induction 1 as [| [threshold fee] rules Hth _ IH]; simpl; [reflexivity |].
  simpl in Hth. apply Qltb_ge in Hth. rewrite Hth. exact IH.
Qed.

Lemma shipping_rules_bounded :
  map_Forall (λ _ rules,
                Forall (λ rule, (rule.1 <= 4000)%Z ∧ (rule.2 <= 600)%Z) rules)
             SHIPPING_RULES.
Proof.
  unfold SHIPPING_RULES.
  repeat (apply map_Forall_insert_2;
          [repeat constructor; simpl; lia |]).
  apply map_Forall_empty.
Qed.

(** X5: with the shipped tables the shipping fee of every country and
    subtotal lies between 0 and 600, and shipping is free for every
    country once the subtotal reaches 4000. *)
Theorem shipping_fee_range (c : string) (subtotal : Q) :
  0 <= _shipping_fee c subtotal
  ∧ _shipping_fee c subtotal <= 600
  ∧ (4000 <= subtotal → _shipping_fee c subtotal = 0).
Proof.
  split; [apply shipping_fee_nonneg |].
  unfold _shipping_fee.
  assert (Hbounded : Forall (λ rule, (rule.1 <= 4000)%Z ∧ (rule.2 <= 600)%Z)
                       (default DEFAULT_SHIPPING_RULES (SHIPPING_RULES !! c))).
  { destruct (SHIPPING_RULES !! c) as [rules |] eqn:Hlookup; simpl.
    - exact (shipping_rules_bounded c rules Hlookup).
    - exact (shipping_rules_bounded "DEFAULT" _ shipping_rules_default). }
  split.
  - apply (shipping_fee_loop_bound _ _ 600); [lia |].
    eapply Forall_impl; [exact Hbounded |]. intros rule [_ Hfee]. exact Hfee.
  - intros Hlarge. apply shipping_fee_loop_free.
    eapply Forall_impl; [exact Hbounded |]. intros rule [Hth _].
    apply Qle_trans with 4000; [| exact Hlarge].
    change 4000 with (inject_Z 4000). rewrite <- Zle_Qle. exact Hth.
Qed.

(** ** Which warnings are issued *)

Lemma unknown_coupon_iff (inv : Invoice) (subtotal : Q) :
  let code := strip (coupon_or_empty (coupon inv)) in
  (_discount inv subtotal []).2
  = if truthy code && bool_decide (_coupon_rate !! code = None)
    then ["Unknown coupon"] else [].
Proof.
  destruct (discount_before_coupon inv subtotal []) as (base & _ & ->).
  cbv zeta. destruct (truthy _); [| reflexivity].
  destruct (_coupon_rate !! _); reflexivity.
Qed.

Lemma upgrade_hint_iff (inv : Invoice) (subtotal : Q) :
  Qgtb subtotal (inject_Z UPGRADE_HINT_THRESHOLD)
  && negb (bool_decide (membership inv ∈ dom MEMBERSHIP_DISCOUNT_RATE)) = true
  ↔ inject_Z UPGRADE_HINT_THRESHOLD < subtotal
    ∧ MEMBERSHIP_DISCOUNT_RATE !! membership inv = None.
Proof.
  rewrite andb_true_iff, negb_true_iff, bool_decide_eq_false.
  rewrite not_elem_of_dom. unfold Qgtb. rewrite Qltb_lt. reflexivity.
Qed.



Lemma upgrade_hint_elem (inv : Invoice) (subtotal : Q) :
  "Consider membership upgrade"
    ∈ _append_warnings inv subtotal (_discount inv subtotal []).2 →
  inject_Z UPGRADE_HINT_THRESHOLD < subtotal
  ∧ MEMBERSHIP_DISCOUNT_RATE !! membership inv = None.
Proof.
  rewrite <- upgrade_hint_iff, unknown_coupon_iff. unfold _append_warnings.
  destruct (truthy _ && bool_decide _); destruct (Qgtb _ _ && negb _); simpl;
    rewrite ?elem_of_cons, ?elem_of_nil; intuition discriminate.
Qed.



(** ** White space around the coupon code *)

Lemma lstrip_all_space (s : string) : all_space s = true → lstrip s = "".
Proof.
  induction s as [| c s IH]; simpl; [reflexivity |].
  intros [Hc Hs]%andb_true_iff. rewrite Hc. exact (IH Hs).
Qed.

Lemma rstrip_all_space (s : string) : all_space s = true → rstrip s = "".
Proof.
  induction s as [| c s IH]; simpl; [reflexivity |].
  intros [Hc Hs]%andb_true_iff. rewrite (IH Hs), Hc. reflexivity.
Qed.

Lemma lstrip_app_space (l s : string) :
  all_space l = true → lstrip (l ++ s) = lstrip s.
Proof.
  induction l as [| c l IH]; simpl; [reflexivity |].
  intros [Hc Hl]%andb_true_iff. rewrite Hc. exact (IH Hl).
Qed.

Lemma rstrip_app_space (s r : string) :
  all_space r = true → rstrip (s ++ r) = rstrip s.
Proof.
  intros Hr. induction s as [| c s IH]; simpl.
  - apply rstrip_all_space. exact Hr.
  - rewrite IH. reflexivity.
Qed.

Lemma strip_app_space_r (s r : string) :
  all_space r = true → rstrip (lstrip (s ++ r)) = rstrip (lstrip s).
Proof.
  intros Hr. induction s as [| c s IH]; simpl.
  - change (rstrip (lstrip r) = "").
    rewrite (lstrip_all_space r Hr). reflexivity.
  - destruct (isspace c); [exact IH |].
    apply (rstrip_app_space (String c s) r Hr).
Qed.

Lemma strip_padding (l s r : string) :
  all_space l = true → all_space r = true → strip (l ++ s ++ r) = strip s.
Proof.
  intros Hl Hr. unfold strip.
  rewrite (lstrip_app_space l _ Hl). apply strip_app_space_r. exact Hr.
Qed.

(** X10: white space around the coupon code is ignored: two invoices of
    the same membership tier whose coupon codes differ by surrounding
    white space only get the same discount and the same warnings.  With an
    empty code this makes a missing coupon, an empty one and one of white
    space only alike. *)
Theorem discount_ignores_coupon_padding (a b : Invoice) (l r : string)
    (subtotal : Q) (warnings : list string) :
  membership a = membership b →
  coupon_or_empty (coupon b) = (l ++ coupon_or_empty (coupon a) ++ r)%string →
  all_space l = true → all_space r = true →
  _discount b subtotal warnings = _discount a subtotal warnings.
Proof.
  intros Htier Hcoupon Hl Hr. unfold _discount.
  rewrite Hcoupon, (strip_padding _ _ _ Hl Hr), Htier. reflexivity.
Qed.

Lemma discount_ignores_coupon_padding_witness :
  _discount (mkInvoice "I" "C" "US" "gold" (Some " VIP20  ") [])
            100 []
  = _discount (mkInvoice "J" "D" "TH" "gold" (Some "VIP20") []) 100 []
  ∧ _discount (mkInvoice "I" "C" "US" "none" (Some "   ") []) 100 []
    = _discount (mkInvoice "J" "D" "TH" "none" None []) 100 [].
Proof.
  split.
  - apply (discount_ignores_coupon_padding _ _ " " "  "); reflexivity.
  - apply (discount_ignores_coupon_padding _ _ "   " ""); reflexivity.
Defined.

(** ** Unknown countries *)

Lemma shipping_tax_same_keys : dom SHIPPING_RULES = dom TAX_RATE.
Proof.
  unfold SHIPPING_RULES, TAX_RATE.
  rewrite !dom_insert_L, !dom_empty_L. reflexivity.
Qed.

(** X11: the shipping table and the tax table have the same countries, so
    a country is priced either by its own entries in both or by the
    entries of "DEFAULT" in both: for a country that is not a key,
    shipping fee and tax are those of the country "DEFAULT". *)
Theorem unknown_country_is_default (c : string) :
  (SHIPPING_RULES !! c = None ↔ TAX_RATE !! c = None)
  ∧ (SHIPPING_RULES !! c = None →
     ∀ amount : Q,
       _shipping_fee c amount = _shipping_fee "DEFAULT" amount
       ∧ _tax c amount = _tax "DEFAULT" amount).
Proof.
  assert (Hkeys : SHIPPING_RULES !! c = None ↔ TAX_RATE !! c = None).
  { rewrite <- !not_elem_of_dom, shipping_tax_same_keys. reflexivity. }
  split; [exact Hkeys |].
  intros Hship amount. pose proof (proj1 Hkeys Hship) as Htax.
  unfold _shipping_fee, _tax. rewrite Hship, Htax. split; reflexivity.
Qed.

Lemma unknown_country_is_default_witness :
  SHIPPING_RULES !! "FR" = None
  ∧ _shipping_fee "FR" 150 = _shipping_fee "DEFAULT" 150
  ∧ _tax "FR" 150 = _tax "DEFAULT" 150.
Proof.
  split; [reflexivity |].
  apply (unknown_country_is_default "FR"). reflexivity.
Defined.

(** ** The fields that decide the price *)

Lemma amounts_same_priced (its1 its2 : list LineItem) :
  Forall2 same_priced_item its1 its2 →
  _subtotal its1 = _subtotal its2 ∧ _fragile_fee its1 = _fragile_fee its2.
Proof.
  intros Hsame. unfold _subtotal, _fragile_fee.
  assert (map (λ it, unit_price it * inject_Z (qty it)) its1
          = map (λ it, unit_price it * inject_Z (qty it)) its2
          ∧ map (λ it, FRAGILE_FEE_PER_UNIT * inject_Z (qty it))
                (List.filter fragile its1)
            = map (λ it, FRAGILE_FEE_PER_UNIT * inject_Z (qty it))
                  (List.filter fragile its2)) as [-> ->];
    [| split; reflexivity].
  induction Hsame as [| x y xs ys (Hprice & Hqty & Hfragile) _ [IH1 IH2]];
    simpl; [split; reflexivity |].
  rewrite Hprice, Hqty, Hfragile, IH1. split; [reflexivity |].
  destruct (fragile y); simpl; [rewrite Hqty, IH2 |]; auto.
Qed.

Lemma discount_by_code (a b : Invoice) (subtotal : Q) (warnings : list string) :
  membership a = membership b →
  strip (coupon_or_empty (coupon a)) = strip (coupon_or_empty (coupon b)) →
  _discount a subtotal warnings = _discount b subtotal warnings.
Proof. intros Htier Hcode. unfold _discount. rewrite Htier, Hcode. reflexivity. Qed.

(** X12: the result of [compute_total] on a valid invoice depends on the
    country, the membership tier, the trimmed coupon code and, item by
    item, the unit price, the quantity and the fragile flag only: two
    valid invoices that agree on these get the same (total, warnings),
    whatever their identifiers, skus and categories. *)
Theorem compute_total_pricing_fields (a b : Invoice) :
  _validate (Some a) = [] → _validate (Some b) = [] →
  country a = country b → membership a = membership b →
  strip (coupon_or_empty (coupon a)) = strip (coupon_or_empty (coupon b)) →
  Forall2 same_priced_item (items a) (items b) →
  compute_total (Some a) = compute_total (Some b).
Proof.
  intros Ha Hb Hcountry Htier Hcode Hitems.
  rewrite (compute_total_valid a Ha), (compute_total_valid b Hb). cbv zeta.
  destruct (amounts_same_priced _ _ Hitems) as [-> ->].
  rewrite (discount_by_code a b _ _ Htier Hcode), Hcountry.
  unfold _append_warnings. rewrite Htier. reflexivity.
Qed.

Lemma compute_total_pricing_fields_witness :
  compute_total (Some padded_coupon_example)
  = compute_total
      (Some (mkInvoice "OTHER" "SOMEONE" "US" "silver" (Some "VIP20")
               [mkLineItem "Z" "food" 12000 1 false])).
Proof.
  apply compute_total_pricing_fields; try reflexivity.
  repeat constructor.
Defined.

(** * Properties of the pipeline on binary64 floats *)

Module Binary64Facts.
Import Binary64.
#[local] Set Warnings "-inexact-float".
Local Open Scope float_scope.

(** ** The examples of the specification, in binary64 *)

Example us_example_total_binary64 :
  compute_total (Some us_example) = Return (278, []).
Proof. vm_compute. reflexivity. Qed.

Example huge_qty_raises :
  _validate (Some huge_qty_example) = []
  ∧ compute_total (Some huge_qty_example) = Raise int_too_large.
Proof. split; vm_compute; reflexivity. Qed.

Example float_lt_int_examples :
  float_lt_int 99.999999999999986 100 = true
  ∧ float_lt_int 100 100 = false
  ∧ float_lt_int nan 0 = false
  ∧ float_lt_int (-0) 0 = false
  ∧ float_lt_int neg_infinity 0 = true
  ∧ float_gt_int 3000.5 3000 = true
  ∧ float_gt_int infinity 10000 = true
  ∧ float_gt_int 9007199254740992 (2 ^ 53 + 1) = false.
Proof. repeat split; vm_compute; reflexivity. Qed.

(** The subtotal depends on the order of the items, and so does the
    side of the shipping threshold of 100 it falls on. *)
Example subtotal_order :
  _subtotal [mkLineItem (u "A") (u "other") 27.71 1 false;
             mkLineItem (u "B") (u "other") 60.3 1 false;
             mkLineItem (u "C") (u "other") 11.99 1 false]
  = Return 99.999999999999986
  ∧ _subtotal [mkLineItem (u "A") (u "other") 27.71 1 false;
               mkLineItem (u "C") (u "other") 11.99 1 false;
               mkLineItem (u "B") (u "other") 60.3 1 false]
    = Return 100.
Proof. split; vm_compute; reflexivity. Qed.

(** ** Sequencing *)

Lemma bind_return {A B} (a : A) (k : A → result B) : (Return a ≫= k) = k a.
Proof. reflexivity. Qed.

Lemma bind_raise {A B} (e : exn) (k : A → result B) : (Raise e ≫= k) = Raise e.
Proof. reflexivity. Qed.

Lemma validate_gate_open (inv : option Invoice) :
  _validate inv = [] → _validate_or_raise inv = Return tt.
Proof. unfold _validate_or_raise. intros ->. reflexivity. Qed.

(** ** Comparing a float with zero *)

Lemma Prim2SF_zero : Prim2SF 0 = S754_zero false.
Proof. vm_compute. reflexivity. Qed.

Lemma Prim2SF_nan_is_nan (x : float) :
  Prim2SF x = S754_nan → is_nan x = true.
Proof.
  unfold Prim2SF. destruct (is_nan x); [reflexivity |].
  destruct (is_zero x); [discriminate |].
  destruct (is_infinity x); [discriminate |].
  destruct (Z.frexp x) as [r e].
  destruct (shr_fexp _ _ _ _ _) as [shr e'].
  destruct (shr_m shr); discriminate.
Qed.

Lemma is_nan_Prim2SF (x : float) : is_nan x = true → Prim2SF x = S754_nan.
Proof. unfold Prim2SF. intros ->. reflexivity. Qed.

(** A float that is not below zero is at least zero or is NaN. *)
Lemma not_below_zero (x : float) :
  (x <? 0) = false → is_nan x = false → (0 <=? x) = true.
Proof.
  rewrite ltb_spec, leb_spec, Prim2SF_zero. intros Hlt Hnan.
  destruct (Prim2SF x) as [s | s | | s m e] eqn:Hx.
  - reflexivity.
  - destruct s; [discriminate Hlt | reflexivity].
  - apply Prim2SF_nan_is_nan in Hx. congruence.
  - destruct s; [discriminate Hlt | reflexivity].
Qed.

Lemma below_zero_not_nan (x : float) : (x <? 0) = true → is_nan x = false.
Proof.
  rewrite ltb_spec. intros Hlt.
  destruct (is_nan x) eqn:Hnan; [| reflexivity].
  rewrite (is_nan_Prim2SF x Hnan) in Hlt. discriminate Hlt.
Qed.

(** Python's clamp [max(x, 0.0)]: 0.0 below zero, [x] itself otherwise,
    so the result is at least zero unless [x] is NaN, which it keeps. *)
Lemma py_max_zero (x : float) :
  py_max x 0 = (if x <? 0 then 0 else x)
  ∧ is_nan (py_max x 0) = is_nan x
  ∧ ((0 <=? py_max x 0) = true ∨ is_nan (py_max x 0) = true).
Proof.
  unfold py_max. destruct (x <? 0) eqn:Hlt.
  - split; [reflexivity |]. rewrite (below_zero_not_nan x Hlt).
    split; [reflexivity | left; reflexivity].
  - split; [reflexivity |]. split; [reflexivity |].
    destruct (is_nan x) eqn:Hnan; [right; reflexivity | left].
    apply not_below_zero; assumption.
Qed.

(** ** Conversions and sums *)

Lemma to_float_cases (n : Z) :
  fits_float n ∧ to_float n = Return (float_of_int n)
  ∨ ¬ fits_float n ∧ to_float n = Raise int_too_large.
Proof.
  unfold to_float, fits_float.
  destruct (is_infinity (float_of_int n)); [right | left]; split;
    try reflexivity; discriminate.
Qed.

(** A term of the shape [factor * it.qty]. *)
Lemma qty_term_cases (factor : LineItem → float) (it : LineItem) :
  let term := λ it, q ← to_float (qty it); mret (factor it * q) in
  fits_float (qty it) ∧ (∃ x, term it = Return x)
  ∨ ¬ fits_float (qty it) ∧ term it = Raise int_too_large.
Proof.
  cbv zeta. destruct (to_float_cases (qty it)) as [[Hfit ->] | [Hfit ->]].
  - left. split; [exact Hfit | eexists; reflexivity].
  - right. split; [exact Hfit | reflexivity].
Qed.

Lemma sum_loop_returns (term : LineItem → result float) (acc : float)
    (its : list LineItem) :
  Forall (λ it, ∃ x, term it = Return x) its →
  ∃ s, sum_loop term acc its = Return s.
Proof.
  intros Hall. revert acc.
  induction Hall as [| it its [x Hx] _ IH]; intros acc; simpl.
  - eexists. reflexivity.
  - rewrite Hx, bind_return. apply IH.
Qed.

Lemma sum_loop_raises (term : LineItem → result float) (e : exn) (acc : float)
    (its : list LineItem) :
  Forall (λ it, term it = Raise e ∨ ∃ x, term it = Return x) its →
  Exists (λ it, term it = Raise e) its →
  sum_loop term acc its = Raise e.
Proof.
  intros Hall. revert acc.
  induction Hall as [| it its Hit _ IH]; intros acc Hex; simpl.
  - inversion Hex.
  - destruct Hit as [-> | [x Hx]]; [reflexivity |].
    rewrite Hx, bind_return. apply IH.
    inversion Hex as [? ? Hhead | ? ? Htail]; subst; [congruence | exact Htail].
Qed.

Lemma subtotal_returns (its : list LineItem) :
  Forall (λ it, fits_float (qty it)) its → ∃ s, _subtotal its = Return s.
Proof.
  intros Hfit. apply sum_loop_returns.
  eapply Forall_impl; [exact Hfit |]. intros it Hit.
  destruct (qty_term_cases unit_price it) as [[_ H] | [H _]];
    [exact H | contradiction].
Qed.

Lemma fragile_fee_returns (its : list LineItem) :
  Forall (λ it, fits_float (qty it)) its → ∃ f, _fragile_fee its = Return f.
Proof.
  intros Hfit. apply sum_loop_returns.
  apply Forall_forall. intros it Hin%list_elem_of_In.
  apply filter_In in Hin as [Hin _].
  rewrite Forall_forall in Hfit. specialize (Hfit it (proj2 (list_elem_of_In _ _) Hin)).
  destruct (qty_term_cases (λ _, FRAGILE_FEE_PER_UNIT) it) as [[_ H] | [H _]];
    [exact H | contradiction].
Qed.

Lemma subtotal_raises (its : list LineItem) :
  Exists (λ it, ¬ fits_float (qty it)) its →
  _subtotal its = Raise int_too_large.
Proof.
  intros Hex. apply sum_loop_raises.
  - apply Forall_forall. intros it _.
    destruct (qty_term_cases unit_price it) as [[_ H] | [_ H]]; auto.
  - eapply Exists_impl; [exact Hex |]. intros it Hit.
    destruct (qty_term_cases unit_price it) as [[H _] | [_ H]];
      [contradiction | exact H].
Qed.

(** ** Shipping *)

Lemma shipping_fee_loop_returns (rules : list (Z * Z)) (subtotal : float) :
  Forall (λ rule, fits_float rule.2) rules →
  ∃ fee, _shipping_fee_loop rules subtotal = Return fee.
Proof.
  induction 1 as [| [threshold fee] rules Hfee _ IH]; simpl.
  - eexists. reflexivity.
  - destruct (float_lt_int subtotal threshold); [| exact IH].
    destruct (to_float_cases fee) as [[_ ->] | [H _]];
      [eexists; reflexivity | contradiction].
Qed.

Lemma shipping_rules_fit :
  map_Forall (λ _ rules, Forall (λ rule, fits_float rule.2) rules)
             SHIPPING_RULES.
Proof.
  unfold SHIPPING_RULES.
  repeat (apply map_Forall_insert_2;
          [repeat constructor; vm_compute; reflexivity |]).
  apply map_Forall_empty.
Qed.

Lemma shipping_fee_returns (c : str) (subtotal : float) :
  ∃ fee, _shipping_fee c subtotal = Return fee.
Proof.
  unfold _shipping_fee. apply shipping_fee_loop_returns.
  destruct (SHIPPING_RULES !! c) as [rules |] eqn:Hlookup; simpl.
  - exact (shipping_rules_fit c rules Hlookup).
  - apply (shipping_rules_fit (u "DEFAULT")). reflexivity.
Qed.

(** ** The total of a valid invoice *)

(** The validator finds nothing on an invoice with a NaN price (NaN is
    not below zero) and its total is NaN, which is not at least zero:
    [max(nan, 0.0)] is NaN.  It finds nothing either on an invoice with a
    quantity of 2 ^ 1024, for which no total is returned at all. *)
Lemma compute_total_not_nonneg :
  (_validate (Some nan_price_example) = []
   ∧ ¬ ∃ total warnings,
         compute_total (Some nan_price_example) = Return (total, warnings)
         ∧ (0 <=? total) = true)
  ∧ (_validate (Some huge_qty_example) = []
     ∧ ¬ ∃ total warnings,
           compute_total (Some huge_qty_example) = Return (total, warnings)).
Proof.
  split; (split; [reflexivity |]).
  - intros (total & warnings & Hrun & Hpos).
    vm_compute in Hrun. injection Hrun as <- _.
    vm_compute in Hpos. discriminate Hpos.
  - intros (total & warnings & Hrun).
    vm_compute in Hrun. discriminate Hrun.
Qed.

Example nan_price_total :
  _validate (Some nan_price_example) = []
  ∧ compute_total (Some nan_price_example) = Return (nan, []).
Proof. split; vm_compute; reflexivity. Qed.

Example huge_price_total :
  _validate (Some huge_price_example) = []
  ∧ _subtotal (items huge_price_example) = Return infinity
  ∧ compute_total (Some huge_price_example) = Return (nan, []).
Proof. repeat split; vm_compute; reflexivity. Qed.

(** C1 (amended): for every invoice that passes validation, if every
    quantity converts to a float, [compute_total] returns
    total = max(subtotal + shipping + fragileFee + tax − discount, 0.0),
    the five terms being the values the stages compute on that invoice
    (tax on subtotal − discount) and max being Python's: 0.0 when the sum
    is below zero and the sum itself otherwise.  The returned total is
    therefore ≥ 0 or NaN, and it is NaN exactly when the sum is.  If a
    quantity is too large to convert to a float, [compute_total] raises
    OverflowError instead. *)
Theorem compute_total_clamp (inv : Invoice) :
  _validate (Some inv) = [] →
  (Forall (λ it, fits_float (qty it)) (items inv) →
   ∃ subtotal fragile_fee shipping,
     _subtotal (items inv) = Return subtotal
     ∧ _fragile_fee (items inv) = Return fragile_fee
     ∧ _shipping_fee (country inv) subtotal = Return shipping
     ∧ let discount := (_discount inv subtotal []).1 in
       let tax := _tax (country inv) (subtotal - discount) in
       let sum := subtotal + shipping + fragile_fee + tax - discount in
       ∃ total warnings,
         compute_total (Some inv) = Return (total, warnings)
         ∧ total = py_max sum 0
         ∧ total = (if sum <? 0 then 0 else sum)
         ∧ is_nan total = is_nan sum
         ∧ ((0 <=? total) = true ∨ is_nan total = true))
  ∧ (Exists (λ it, ¬ fits_float (qty it)) (items inv) →
     compute_total (Some inv) = Raise int_too_large).
Proof.
  intros Hvalid. split.
  - intros Hfit.
    destruct (subtotal_returns _ Hfit) as [subtotal Hsubtotal].
    destruct (fragile_fee_returns _ Hfit) as [fragile_fee Hfragile].
    destruct (shipping_fee_returns (country inv) subtotal) as [shipping Hshipping].
    exists subtotal, fragile_fee, shipping.
    split; [exact Hsubtotal |]. split; [exact Hfragile |].
    split; [exact Hshipping |]. cbv zeta.
    unfold compute_total.
    rewrite (validate_gate_open _ Hvalid), bind_return.
    rewrite Hsubtotal, bind_return, Hfragile, bind_return.
    rewrite Hshipping, bind_return.
    destruct (_discount inv subtotal []) as [discount warnings]. simpl.
    eexists _, _. split; [reflexivity |]. split; [reflexivity |].
    apply py_max_zero.
  - intros Hlarge. unfold compute_total.
    rewrite (validate_gate_open _ Hvalid), bind_return.
    rewrite (subtotal_raises _ Hlarge). reflexivity.
Qed.

Lemma compute_total_clamp_witness :
  (_validate (Some us_example) = []
   ∧ Forall (λ it, fits_float (qty it)) (items us_example)
   ∧ ∃ total warnings,
       compute_total (Some us_example) = Return (total, warnings)
       ∧ total = py_max (250 + 8 + 0 + 20 - 0) 0
       ∧ (0 <=? total) = true)
  ∧ (_validate (Some huge_qty_example) = []
     ∧ Exists (λ it, ¬ fits_float (qty it)) (items huge_qty_example)
     ∧ compute_total (Some huge_qty_example) = Raise int_too_large).
Proof.
  split.
  - split; [reflexivity |].
    assert (Hfit : Forall (λ it, fits_float (qty it)) (items us_example))
      by (repeat constructor).
    split; [exact Hfit |].
    destruct (compute_total_clamp us_example eq_refl) as [Hreturns _].
    destruct (Hreturns Hfit)
      as (subtotal & fragile_fee & shipping & Hs & Hf & Hsh
          & total & warnings & Hrun & Htotal & _).
    exists total, warnings. split; [exact Hrun |].
    vm_compute in Hs, Hf. injection Hs as <-. injection Hf as <-.
    vm_compute in Hsh. injection Hsh as <-.
    rewrite Htotal. split; vm_compute; reflexivity.
  - split; [reflexivity |].
    assert (Hlarge : Exists (λ it, ¬ fits_float (qty it))
                       (items huge_qty_example)).
    { apply Exists_cons_hd. unfold fits_float. vm_compute. discriminate. }
    split; [exact Hlarge |].
    apply (compute_total_clamp huge_qty_example eq_refl). exact Hlarge.
Defined.

(** ** What passes validation *)

Lemma str_truthy_true (s : str) : truthy s = true ↔ s ≠ [].
Proof. destruct s; simpl; split; congruence. Qed.

Lemma str_truthy_false (s : str) : truthy s = false ↔ s = [].
Proof. destruct s; simpl; split; congruence. Qed.

Lemma item_problems_nil (it : LineItem) :
  item_problems it = [] ↔ valid_item it.
Proof.
  unfold item_problems, valid_item. split.
  - destruct (truthy (sku it)) eqn:Hsku;
      destruct (qty it <=? 0)%Z eqn:Hqty;
      destruct (float_lt_int (unit_price it) 0) eqn:Hprice;
      destruct (decide (category it ∈ ALLOWED_CATEGORIES)) as [Hcat | Hcat];
      simpl; intros H; try discriminate H.
    apply str_truthy_true in Hsku. apply Z.leb_gt in Hqty.
    repeat split; assumption.
  - intros (Hsku & Hqty & Hprice & Hcat).
    apply str_truthy_true in Hsku. apply Z.leb_gt in Hqty.
    rewrite Hsku, Hqty, Hprice.
    destruct (decide (category it ∈ ALLOWED_CATEGORIES)); [| contradiction].
    reflexivity.
Qed.

Lemma concat_item_problems_nil (its : list LineItem) :
  concat (map item_problems its) = [] ↔ Forall valid_item its.
Proof.
  induction its as [| it its IH]; simpl.
  - split; [constructor | reflexivity].
  - rewrite Forall_cons, <- IH, <- item_problems_nil.
    split.
    + intros H. apply app_eq_nil in H. exact H.
    + intros [-> ->]. reflexivity.
Qed.

(** X1: an invoice passes validation exactly when both identifiers are
    non-empty, there is at least one item, and every item has a non-empty
    sku, a positive quantity, a unit price for which [unit_price < 0] is
    false (a non-negative number, an infinity or NaN) and an allowed
    category. *)
Theorem validate_nil_iff (inv : Invoice) :
  _validate (Some inv) = []
  ↔ invoice_id inv ≠ [] ∧ customer_id inv ≠ [] ∧ items inv ≠ []
    ∧ Forall valid_item (items inv).
Proof.
  unfold _validate. rewrite <- concat_item_problems_nil.
  destruct (items inv) as [| it its] eqn:Hitems.
  - split.
    + intros H. apply app_eq_nil in H as [_ H]. discriminate H.
    + intros (_ & _ & H & _). congruence.
  - rewrite <- (str_truthy_true (invoice_id inv)), <- (str_truthy_true (customer_id inv)).
    destruct (truthy (invoice_id inv)), (truthy (customer_id inv)); simpl;
      (split; [intros H | intros (Hid & Hcust & _ & H)]);
      try discriminate; try assumption.
    repeat split; [discriminate | exact H].
Qed.

Example nan_price_is_valid :
  Forall valid_item (items nan_price_example)
  ∧ (unit_price (mkLineItem (u "A") (u "other") nan 1 false) <? 0) = false
  ∧ (0 <=? unit_price (mkLineItem (u "A") (u "other") nan 1 false)) = false.
Proof.
  split; [| split; vm_compute; reflexivity].
  repeat constructor; try discriminate; vm_compute; reflexivity.
Qed.

(** ** The coupon step *)

Lemma lstrip_decompose (s : str) :
  ∃ l, s = l ++ lstrip s
       ∧ Forall (λ c, isspace c = true) l
       ∧ (∀ c, head (lstrip s) = Some c → isspace c = false).
Proof.
  induction s as [| c s (l & Hs & Hl & Hhead)]; simpl.
  - exists []. repeat split; [constructor | discriminate].
  - destruct (isspace c) eqn:Hc.
    + exists (c :: l). simpl. rewrite <- Hs.
      repeat split; [constructor; assumption | exact Hhead].
    + exists []. repeat split; [constructor |].
      intros c' [= <-]. exact Hc.
Qed.

Lemma rstrip_decompose (s : str) :
  ∃ r, s = rstrip s ++ r
       ∧ Forall (λ c, isspace c = true) r
       ∧ (∀ c, last (rstrip s) = Some c → isspace c = false).
Proof.
  unfold rstrip.
  destruct (lstrip_decompose (reverse s)) as (l & Hs & Hl & Hhead).
  exists (reverse l). split; [| split].
  - rewrite <- reverse_app, <- Hs, reverse_involutive. reflexivity.
  - apply Forall_reverse. exact Hl.
  - intros c. rewrite last_reverse. apply Hhead.
Qed.

(** [strip] removes a prefix and a suffix of white space, and what it
    leaves neither starts nor ends with white space. *)
Lemma strip_decompose (s : str) :
  ∃ l r, s = l ++ strip s ++ r
         ∧ Forall (λ c, isspace c = true) l
         ∧ Forall (λ c, isspace c = true) r
         ∧ (∀ c, head (strip s) = Some c → isspace c = false)
         ∧ (∀ c, last (strip s) = Some c → isspace c = false).
Proof.
  unfold strip.
  destruct (lstrip_decompose s) as (l & Hs & Hl & Hhead).
  destruct (rstrip_decompose (lstrip s)) as (r & Hm & Hr & Hlast).
  exists l, r. split; [rewrite <- Hm; exact Hs |].
  split; [exact Hl |]. split; [exact Hr |]. split; [| exact Hlast].
  intros c Hc. apply Hhead. rewrite Hm.
  destruct (rstrip (lstrip s)); [discriminate Hc | exact Hc].
Qed.

(** C5: the coupon code is trimmed of surrounding white space: the code
    that is looked up is the coupon ([""] when there is none) without a
    prefix and a suffix of white space, and neither starts nor ends with
    white space.  A code that is empty after trimming changes nothing; a
    non-empty code absent from the coupon table appends the warning
    "Unknown coupon" and leaves the discount as it was; a code of the
    table adds subtotal × couponRate to the discount and appends no
    warning. *)
Theorem discount_coupon_trimmed (inv : Invoice) (subtotal : float)
    (warnings : list str) :
  let raw := coupon_or_empty (coupon inv) in
  let code := strip raw in
  let discount := discount_before_coupon inv subtotal in
  (∃ l r, raw = l ++ code ++ r
          ∧ Forall (λ c, isspace c = true) l
          ∧ Forall (λ c, isspace c = true) r
          ∧ (∀ c, head code = Some c → isspace c = false)
          ∧ (∀ c, last code = Some c → isspace c = false))
  ∧ (code = [] → _discount inv subtotal warnings = (discount, warnings))
  ∧ (code ≠ [] → _coupon_rate !! code = None →
     _discount inv subtotal warnings
     = (discount, warnings ++ [u "Unknown coupon"]))
  ∧ (∀ rate, code ≠ [] → _coupon_rate !! code = Some rate →
     _discount inv subtotal warnings
     = (discount + subtotal * rate, warnings)).
Proof.
  cbv zeta. split; [apply strip_decompose |].
  unfold _discount, discount_before_coupon.
  split; [| split].
  - intros Hcode%str_truthy_false. rewrite Hcode. reflexivity.
  - intros Hcode%str_truthy_true Hunknown. rewrite Hcode, Hunknown. reflexivity.
  - intros rate Hcode%str_truthy_true Hknown. rewrite Hcode, Hknown. reflexivity.
Qed.

Lemma discount_coupon_trimmed_witness :
  coupon wide_space_coupon_example = Some ([0x2003%N] ++ u "BOGUS" ++ [0x3000%N])
  ∧ strip (coupon_or_empty (coupon wide_space_coupon_example)) = u "BOGUS"
  ∧ _discount wide_space_coupon_example 120 []
    = (discount_before_coupon wide_space_coupon_example 120,
       [u "Unknown coupon"])
  ∧ coupon padded_coupon_example = Some (u "  VIP20 ")
  ∧ _discount padded_coupon_example 12000 []
    = (discount_before_coupon padded_coupon_example 12000 + 12000 * 0.20, []).
Proof.
  split; [reflexivity |]. split; [reflexivity |].
  pose proof (discount_coupon_trimmed wide_space_coupon_example 120 [])
    as (_ & _ & Hunknown & _).
  pose proof (discount_coupon_trimmed padded_coupon_example 12000 [])
    as (_ & _ & _ & Hknown).
  split; [apply Hunknown; [discriminate | reflexivity] |].
  split; [reflexivity |].
  apply Hknown; [discriminate | reflexivity].
Defined.

Example padded_coupon_discount_binary64 :
  _discount padded_coupon_example 12000 [] = (2420, []).
Proof. vm_compute. reflexivity. Qed.

End Binary64Facts.
